(** * Smart inventory: the reconciliation core

    A shallow embedding of [src/vision_processor.py] (the frame
    reconciliation routine [process_frame_update] and the default state of
    [load_inventory_state]) and of [src/app_api.py] (the in-memory frame
    simulation [process_vision_frame] and the two read endpoints).

    Python [int] is [Z], [str] is [string], a [dict] is an association
    list in insertion order (Python dictionaries iterate in insertion order
    and have pairwise distinct keys), [None] is [None].  Console output
    ([print]) is not modelled.  The wall clock read by [time.strftime] and
    the draws of the [random] module are explicit arguments. *)

From stdpp Require Import base list numbers strings pretty.
From Stdlib Require Import ZArith Lia.

Open Scope Z_scope.

(** ** Dictionaries as association lists *)

Section Dict.
Context {K V : Type} `{EqDecision K}.

(** [d.get(k, default)]: the value of the first entry with key [k]. *)
Fixpoint dict_get (k : K) (d : list (K * V)) (default : V) : V :=
  match d with
  | [] => default
  | (k', v) :: d' => if decide (k' = k) then v else dict_get k d' default
  end.

(** [d[k]], which raises [KeyError] ([None]) on a missing key. *)
Fixpoint dict_lookup (k : K) (d : list (K * V)) : option V :=
  match d with
  | [] => None
  | (k', v) :: d' => if decide (k' = k) then Some v else dict_lookup k d'
  end.

(** In-place update of the object stored under [k]. *)
Fixpoint dict_alter (f : V → V) (k : K) (d : list (K * V)) : list (K * V) :=
  match d with
  | [] => []
  | (k', v) :: d' =>
      if decide (k' = k) then (k', f v) :: d' else (k', v) :: dict_alter f k d'
  end.

Definition keys (d : list (K * V)) : list K := d.*1.
Definition values (d : list (K * V)) : list V := d.*2.
End Dict.

(** [l.count(x)] *)
Definition count (x : Z) (l : list Z) : Z := Z.of_nat (count_occ Z.eq_dec l x).

(** ** The alert tiers, as the specification words them (section 4.1) *)

Inductive Tier := Ok | Low | Critical.

Definition tier_str (t : Tier) : string :=
  match t with Ok => "OK" | Low => "LOW" | Critical => "CRITICAL" end.

(** [evaluate(stock, min_stock)], following the specification's words. *)
Definition evaluate (stock min_stock : Z) : Tier :=
  if stock =? 0 then Critical
  else if stock <=? min_stock then Low
  else Ok.

(** ** [vision_processor.py] *)

Module VisionProcessor.

(** The inner dictionary of one item:
    [{"name", "min_stock", "current_stock", "alert_status"}]. *)
Record Item := mkItem {
  name : string;
  min_stock : Z;
  current_stock : Z;
  alert_status : string
}.

(** [InventoryState = Dict[int, Dict]] *)
Abbreviation InventoryState := (list (Z * Item)).

(** The transaction dictionary built at lines 121-127. *)
Record Transaction := mkTransaction {
  item_id : string;
  item_name : string;
  timestamp : string;
  action : string;
  quantity_change : Z
}.

Definition set_current_stock (v : Z) (d : Item) : Item :=
  mkItem (name d) (min_stock d) v (alert_status d).

Definition set_alert_status (v : string) (d : Item) : Item :=
  mkItem (name d) (min_stock d) (current_stock d) v.

Definition INITIAL_INVENTORY_CONFIG : list (Z * (string * Z * Z)) :=
  [ (1, ("Laptop Box", 2, 5));
    (2, ("Accessory Kit", 5, 10));
    (3, ("Monitor Stand", 1, 3)) ].

(** The state [load_inventory_state] returns when the file is missing or
    undecodable: [{id: {**data, "alert_status": "OK"} ...}]. *)
Definition default_state : InventoryState :=
  map (λ '(id, (n, m, c)), (id, mkItem n m c "OK")) INITIAL_INVENTORY_CONFIG.

(** Lines 110-114: the status computed from an item's fields. *)
Definition new_status_of (item_data : Item) : string :=
  let new_status := "OK" in
  let new_status :=
    if current_stock item_data <=? min_stock item_data then "LOW" else new_status in
  let new_status :=
    if current_stock item_data =? 0 then "CRITICAL" else new_status in
  new_status.

(** Lines 106-116: the two assignments into [item_data]. *)
Definition apply_count (new_count : Z) (item_data : Item) : Item :=
  let item_data := set_current_stock new_count item_data in
  set_alert_status (new_status_of item_data) item_data.

(** Lines 120-127; [now] is what [time.strftime] returns. *)
Definition make_transaction (now : string) (id : Z) (item_data : Item)
    (change : Z) : Transaction :=
  let action := if change >? 0 then "ADDED" else "REMOVED" in
  {| item_id := pretty id;
     item_name := name item_data;
     timestamp := now;
     action := action;
     quantity_change := Z.abs change |}.

(** Line 97: [{item_id: tracked_ids.count(item_id) for item_id in keys}]. *)
Definition count_ids (ids : list Z) (tracked_ids : list Z) : list (Z * Z) :=
  map (λ id, (id, count id tracked_ids)) ids.

(** Lines 99-129: the loop over [new_state.items()], threading the
    local variable [transaction]. *)
Fixpoint frame_loop (now : string) (new_counts : list (Z * Z))
    (items : list (Z * Item)) (transaction : option Transaction)
    : list (Z * Item) * option Transaction :=
  match items with
  | [] => ([], transaction)
  | (id, item_data) :: rest =>
      let old_count := current_stock item_data in
      let new_count := dict_get id new_counts 0 in
      if negb (new_count =? old_count) then
        let change := new_count - old_count in
        let item_data := apply_count new_count item_data in
        let transaction :=
          match transaction with
          | None => Some (make_transaction now id item_data change)
          | Some _ => transaction
          end in
        let '(rest', transaction) := frame_loop now new_counts rest transaction in
        ((id, item_data) :: rest', transaction)
      else
        let '(rest', transaction) := frame_loop now new_counts rest transaction in
        ((id, item_data) :: rest', transaction)
  end.

(** [process_frame_update(current_state, tracked_ids)] on values: the
    per-item copies of line 93 are the values themselves. *)
Definition process_frame_update (now : string) (current_state : InventoryState)
    (tracked_ids : list Z) : InventoryState * option Transaction :=
  let new_state := current_state in
  let transaction := None in
  let new_counts := count_ids (keys new_state) tracked_ids in
  frame_loop now new_counts new_state transaction.

(** The transactions a cycle hands back: none or one. *)
Definition transactions (r : InventoryState * option Transaction)
    : list Transaction :=
  match r.2 with None => [] | Some t => [t] end.

(** The item's observed count differs from its stored stock. *)
Definition changed (tracked_ids : list Z) (e : Z * Item) : bool :=
  negb (count e.1 tracked_ids =? current_stock e.2).

Definition changed_items (current_state : InventoryState)
    (tracked_ids : list Z) : list (Z * Item) :=
  List.filter (changed tracked_ids) current_state.

(** What the loop does to one entry. *)
Definition reconcile_entry (tracked_ids : list Z) (e : Z * Item) : Z * Item :=
  if changed tracked_ids e
  then (e.1, apply_count (count e.1 tracked_ids) e.2)
  else e.

(** The transaction of a changed entry. *)
Definition transaction_for (now : string) (tracked_ids : list Z)
    (e : Z * Item) : Transaction :=
  let new_count := count e.1 tracked_ids in
  make_transaction now e.1 (apply_count new_count e.2)
    (new_count - current_stock e.2).

(** The tier invariant on one record. *)
Definition tier_ok (d : Item) : Prop :=
  alert_status d = tier_str (evaluate (current_stock d) (min_stock d)).

Definition stock_nonneg (d : Item) : Prop := 0 ≤ current_stock d.

Definition set_timestamp (now : string) (t : Transaction) : Transaction :=
  mkTransaction (item_id t) (item_name t) now (action t) (quantity_change t).

(** An item of the catalog nobody sees any more: stock 0, CRITICAL. *)
Definition clear_entry (e : Z * Item) : Z * Item :=
  if current_stock e.2 =? 0 then e
  else (e.1, mkItem (name e.2) (min_stock e.2) 0 "CRITICAL").

End VisionProcessor.

(** ** [process_frame_update] on references

    The same function with Python's object model written out: every
    dictionary is an object in a heap, a variable holds a reference, and
    [item_data[k] = v] writes through the reference.  [None] is a failed
    run (a dangling reference or an object of the wrong kind). *)

Module Heap.
Import VisionProcessor.

Abbreviation loc := nat.

Inductive obj :=
| ItemDict (d : Item)
| StateDict (entries : list (Z * loc)).

Abbreviation heap := (list obj).

Definition M (A : Type) : Type := heap → option (A * heap).

Definition ret {A} (a : A) : M A := λ h, Some (a, h).

Definition bind {A B} (m : M A) (k : A → M B) : M B :=
  λ h, match m h with Some (a, h') => k a h' | None => None end.

Notation "'let*' x := m 'in' k" := (bind m (λ x, k))
  (at level 10, x pattern, m at level 200, k at level 200).

(** A new dictionary object. *)
Definition alloc (o : obj) : M loc := λ h, Some (length h, h ++ [o]).

Definition get_item (l : loc) : M Item :=
  λ h, match h !! l with Some (ItemDict d) => Some (d, h) | _ => None end.

Definition get_state (l : loc) : M (list (Z * loc)) :=
  λ h, match h !! l with Some (StateDict es) => Some (es, h) | _ => None end.

(** [item_data[field] = v], with [f] the field update. *)
Definition set_item (l : loc) (f : Item → Item) : M unit :=
  λ h, match h !! l with
       | Some (ItemDict d) => Some ((), <[l := ItemDict (f d)]> h)
       | _ => None
       end.

(** Line 93: [{id: data.copy() for id, data in current_state.items()}]. *)
Fixpoint copy_items (entries : list (Z * loc)) : M (list (Z * loc)) :=
  match entries with
  | [] => ret []
  | (id, data) :: rest =>
      let* d := get_item data in
      let* l := alloc (ItemDict d) in
      let* rest' := copy_items rest in
      ret ((id, l) :: rest')
  end.

(** Lines 99-129. *)
Fixpoint frame_loop (now : string) (new_counts : list (Z * Z))
    (items : list (Z * loc)) (transaction : option Transaction)
    : M (option Transaction) :=
  match items with
  | [] => ret transaction
  | (id, item_data) :: rest =>
      let* d := get_item item_data in
      let old_count := current_stock d in
      let new_count := dict_get id new_counts 0 in
      if negb (new_count =? old_count) then
        let change := new_count - old_count in
        let* _ := set_item item_data (set_current_stock new_count) in
        let* d := get_item item_data in
        let new_status := new_status_of d in
        let* _ := set_item item_data (set_alert_status new_status) in
        let* d := get_item item_data in
        let transaction :=
          match transaction with
          | None => Some (make_transaction now id d change)
          | Some _ => transaction
          end in
        frame_loop now new_counts rest transaction
      else frame_loop now new_counts rest transaction
  end.

Definition process_frame_update (now : string) (current_state : loc)
    (tracked_ids : list Z) : M (loc * option Transaction) :=
  let* entries := get_state current_state in
  let* copies := copy_items entries in
  let* new_state := alloc (StateDict copies) in
  let transaction := None in
  let* ks := get_state new_state in
  let new_counts := count_ids (keys ks) tracked_ids in
  let* items := get_state new_state in
  let* transaction := frame_loop now new_counts items transaction in
  ret (new_state, transaction).

(** The values a list of entries refers to. *)
Fixpoint read_items (h : heap) (entries : list (Z * loc)) : option InventoryState :=
  match entries with
  | [] => Some []
  | (id, l) :: rest =>
      match h !! l, read_items h rest with
      | Some (ItemDict d), Some s => Some ((id, d) :: s)
      | _, _ => None
      end
  end.

(** The entries of a dictionary whose values are the [length s] objects
    allocated from address [base] on. *)
Definition fresh_entries (base : nat) (s : InventoryState) : list (Z * loc) :=
  zip (keys s) (seq base (length s)).

(** The snapshot a state reference denotes. *)
Definition snapshot (h : heap) (l : loc) : option InventoryState :=
  match h !! l with
  | Some (StateDict es) => read_items h es
  | _ => None
  end.

End Heap.

(** ** [app_api.py] *)

Module AppApi.

(** [class InventoryItem(BaseModel)] *)
Record InventoryItem := mkInventoryItem {
  id : Z;
  name : string;
  min_stock : Z;
  current_stock : Z;
  alert_status : string
}.

(** [class Transaction(BaseModel)] *)
Record Transaction := mkTransaction {
  item_id : Z;
  item_name : string;
  timestamp : string;
  action : string;
  quantity_change : Z
}.

Definition INVENTORY_ITEMS : list (Z * (string * Z * Z)) :=
  [ (1, ("Laptop Box", 2, 5));
    (2, ("Accessory Kit", 5, 10));
    (3, ("Monitor Stand", 1, 3)) ].

(** [list(INVENTORY_ITEMS.keys()) * 2] *)
Definition SIMULATED_DETECTED_IDS : list Z :=
  keys INVENTORY_ITEMS ++ keys INVENTORY_ITEMS.

(** The two module globals. *)
Record State := mkState {
  inventory_db : list (Z * InventoryItem);
  transaction_history : list Transaction
}.

Definition initial_state : State :=
  {| inventory_db :=
       map (λ '(i, (n, m, c)), (i, mkInventoryItem i n m c "OK")) INVENTORY_ITEMS;
     transaction_history := [] |}.

Inductive Action := ADD | REMOVE | NONE.

Definition action_str (a : Action) : string :=
  match a with ADD => "ADD" | REMOVE => "REMOVE" | NONE => "NONE" end.

Definition is_NONE (a : Action) : bool :=
  match a with NONE => true | _ => false end.
Definition is_ADD (a : Action) : bool :=
  match a with ADD => true | _ => false end.
Definition is_REMOVE (a : Action) : bool :=
  match a with REMOVE => true | _ => false end.

(** What the [random] module hands to one frame: the element picked
    from [SIMULATED_DETECTED_IDS], the action picked, and the integer
    [random_k] with [random.random() = random_k / 2^53]. *)
Record Draws := mkDraws {
  target_id : Z;
  picked_action : Action;
  random_k : Z
}.

Definition valid_draws (dr : Draws) : Prop :=
  target_id dr ∈ SIMULATED_DETECTED_IDS ∧ 0 ≤ random_k dr < 2 ^ 53.

(** [random.random() < 0.3]: the double [0.3] is
    [5404319552844595 / 2^54], so [k / 2^53 < 0.3] is this comparison. *)
Definition random_lt_0_3 (k : Z) : bool := 2 * k <? 5404319552844595.

(** Lines 70-79: [current_stock += change] and the status. *)
Definition apply_change (change : Z) (item : InventoryItem) : InventoryItem :=
  let stock := current_stock item + change in
  let new_status := "OK" in
  let new_status := if stock <=? min_stock item then "LOW" else new_status in
  let new_status := if stock =? 0 then "CRITICAL" else new_status in
  mkInventoryItem (id item) (name item) (min_stock item) stock new_status.

(** [process_vision_frame()]; [None] is the [KeyError] of
    [inventory_db[target_id]]. *)
Definition process_vision_frame (now : string) (dr : Draws) (st : State)
    : option State :=
  let target_id := target_id dr in
  let action := picked_action dr in
  if negb (is_NONE action) && random_lt_0_3 (random_k dr) then
    match dict_lookup target_id (inventory_db st) with
    | None => None
    | Some item =>
        let change := if is_ADD action then 1 else -1 in
        let '(change, action) :=
          if is_REMOVE action && (current_stock item <=? 0)
          then (0, NONE) else (change, action) in
        if negb (change =? 0) then
          let item' := apply_change change item in
          Some {| inventory_db :=
                    dict_alter (λ _, item') target_id (inventory_db st);
                  transaction_history :=
                    transaction_history st ++
                    [ {| item_id := id item';
                         item_name := name item';
                         timestamp := now;
                         action := action_str action +:+ "ED";
                         quantity_change := change |} ] |}
        else Some st
    end
  else Some st.

(** [GET /inventory/status] *)
Definition get_inventory_status (now : string) (dr : Draws) (st : State)
    : option (State * list InventoryItem) :=
  match process_vision_frame now dr st with
  | None => None
  | Some st' => Some (st', values (inventory_db st'))
  end.

(** [GET /inventory/transactions]: [transaction_history[-10:]]. *)
Definition get_transaction_history (st : State) : State * list Transaction :=
  (st, drop (length (transaction_history st) - 10) (transaction_history st)).

(** The frame of a status read changes something. *)
Definition frame_fires (dr : Draws) (st : State) : bool :=
  negb (is_NONE (picked_action dr)) && random_lt_0_3 (random_k dr) &&
  match dict_lookup (target_id dr) (inventory_db st) with
  | None => false
  | Some item =>
      negb (is_REMOVE (picked_action dr) && (current_stock item <=? 0))
  end.

Definition tier_ok (d : InventoryItem) : Prop :=
  alert_status d = tier_str (evaluate (current_stock d) (min_stock d)).

Definition stock_nonneg (d : InventoryItem) : Prop := 0 ≤ current_stock d.

End AppApi.

(** ** [generate_simulated_tracked_objects] and one pass of the main loop *)

Module Simulator.
Import VisionProcessor.

(** [random.choice(["ADD", "REMOVE"])] *)
Inductive Action := ADD | REMOVE.

(** What the [random] module hands to one call: [random_k] with
    [random.random() = random_k / 2^53], the action picked, and the
    position [target_pick] that [random.choice] draws in the key list. *)
Record Draws := mkDraws {
  random_k : Z;
  picked_action : Action;
  target_pick : nat
}.

(** [random.choice(seq)]: [IndexError] ([None]) on an empty sequence,
    otherwise the element at the drawn position. *)
Definition random_choice {A} (pick : nat) (seq : list A) : option A :=
  seq !! (pick mod length seq)%nat.

(** [l.remove(x)]: drops the first [x]; [ValueError] ([None]) without one. *)
Fixpoint list_remove (x : Z) (l : list Z) : option (list Z) :=
  match l with
  | [] => None
  | y :: l' =>
      if decide (y = x) then Some l'
      else match list_remove x l' with
           | Some r => Some (y :: r)
           | None => None
           end
  end.

(** Lines 62-65: [present_ids.extend([item_id] * data["current_stock"])]
    for every item; a list times a negative number is empty. *)
Fixpoint extend_present (present_ids : list Z) (items : list (Z * Item)) : list Z :=
  match items with
  | [] => present_ids
  | (item_id, data) :: rest =>
      extend_present
        (present_ids ++ replicate (Z.to_nat (current_stock data)) item_id) rest
  end.

(** [generate_simulated_tracked_objects(current_state)] *)
Definition generate_simulated_tracked_objects (dr : Draws)
    (current_state : InventoryState) : option (list Z) :=
  let present_ids := extend_present [] current_state in
  if AppApi.random_lt_0_3 (random_k dr) then
    let action := picked_action dr in
    match random_choice (target_pick dr) (keys current_state) with
    | None => None
    | Some target_id =>
        match action with
        | ADD => Some (present_ids ++ [target_id])
        | REMOVE =>
            if bool_decide (target_id ∈ present_ids)
            then list_remove target_id present_ids
            else Some present_ids
        end
    end
  else Some present_ids.



End Simulator.

(** ** A sequence of status requests to the API *)

Module Server.
Import AppApi.

(** One [GET /inventory/status] after another, each with its clock
    reading and its draws; the responses are dropped. *)
Fixpoint status_reads (reqs : list (string * Draws)) (st : State) : option State :=
  match reqs with
  | [] => Some st
  | (now, dr) :: rest =>
      match get_inventory_status now dr st with
      | None => None
      | Some (st', _) => status_reads rest st'
      end
  end.

(** The sum of the [quantity_change] of the transactions of item [k]. *)
Fixpoint net_change (k : Z) (log : list Transaction) : Z :=
  match log with
  | [] => 0
  | t :: log' =>
      (if decide (item_id t = k) then quantity_change t else 0) + net_change k log'
  end.

(** The stock the module starts item [k] with. *)
Definition initial_stock (k : Z) : Z :=
  match dict_lookup k (inventory_db initial_state) with
  | Some item => current_stock item
  | None => 0
  end.

(** The ledger: every record sits under its own id and holds the stock
    the module started it with plus the quantities the log has for it. *)
Definition ledger_ok (st : State) : Prop :=
  ∀ k item, dict_lookup k (inventory_db st) = Some item →
    id item = k
    ∧ current_stock item = initial_stock k + net_change k (transaction_history st).

(** What a frame never touches in a record. *)
Definition identity (e : Z * InventoryItem) : Z * Z * string * Z :=
  (e.1, id e.2, name e.2, min_stock e.2).

End Server.

(** * Properties *)

(** ** Dictionaries and counting *)

Section DictFacts.
Context {K V : Type} `{EqDecision K}.

Lemma dict_lookup_is_Some (k : K) (d : list (K * V)) :
  is_Some (dict_lookup k d) ↔ k ∈ keys d.
Proof.
  unfold keys. induction d as [|[k' v] d IH]; simpl.
  - split; [intros [? [=]] | intros ?%elem_of_nil; done].
  - destruct (decide (k' = k)) as [->|Hne].
    + split; [intros _; left | eauto].
    + rewrite IH. split; [by right | ].
      intros [?|?]%elem_of_cons; [congruence | done].
Qed.

Lemma keys_dict_alter (f : V → V) (k : K) (d : list (K * V)) :
  keys (dict_alter f k d) = keys d.
Proof.
  unfold keys. induction d as [|[k' v] d IH]; simpl; [done|].
  destruct (decide (k' = k)); simpl; [done | by f_equal].
Qed.

Lemma Forall_values_dict_alter (P : V → Prop) (v' : V) (k : K) (d : list (K * V)) :
  P v' → Forall P (values d) → Forall P (values (dict_alter (λ _, v') k d)).
Proof.
  unfold values. intros Hv. induction d as [|[k' v] d IH]; simpl; [done|].
  intros [Hhd Htl]%Forall_cons. destruct (decide (k' = k)); simpl.
  - by constructor.
  - constructor; [done | by apply IH].
Qed.
End DictFacts.

Lemma count_nil (x : Z) : count x [] = 0.
Proof. reflexivity. Qed.

Lemma count_nonneg (x : Z) (l : list Z) : 0 ≤ count x l.
Proof. unfold count. lia. Qed.

Lemma count_filter (P : Z → Prop) `{∀ x, Decision (P x)} (x : Z) (l : list Z) :
  P x → count x (filter P l) = count x l.
Proof.
  intros HP. unfold count. f_equal.
  induction l as [|y l IH]; [done|].
  rewrite filter_cons. destruct (decide (P y)) as [Hy|Hy]; simpl.
  - destruct (Z.eq_dec y x); by rewrite IH.
  - destruct (Z.eq_dec y x) as [->|]; [done | apply IH].
Qed.

Lemma count_absent (x : Z) (l : list Z) : x ∉ l → count x l = 0.
Proof.
  intros Hx. unfold count.
  assert (count_occ Z.eq_dec l x = 0%nat) as ->; [|done].
  apply count_occ_not_In. by rewrite <- list_elem_of_In.
Qed.

(** ** The alert evaluation of the code is that of the specification *)

Lemma new_status_of_evaluate (d : VisionProcessor.Item) :
  VisionProcessor.new_status_of d =
  tier_str (evaluate (VisionProcessor.current_stock d) (VisionProcessor.min_stock d)).
Proof.
  unfold VisionProcessor.new_status_of, evaluate.
  destruct (_ =? 0); [done|]. by destruct (_ <=? _).
Qed.

Lemma apply_count_tier_ok (n : Z) (d : VisionProcessor.Item) :
  VisionProcessor.tier_ok (VisionProcessor.apply_count n d).
Proof.
  unfold VisionProcessor.tier_ok, VisionProcessor.apply_count.
  cbn [VisionProcessor.alert_status VisionProcessor.set_alert_status].
  by rewrite new_status_of_evaluate.
Qed.

Lemma apply_change_tier_ok (c : Z) (d : AppApi.InventoryItem) :
  AppApi.tier_ok (AppApi.apply_change c d).
Proof.
  unfold AppApi.tier_ok, AppApi.apply_change, evaluate. simpl.
  destruct (_ =? 0); [done|]. by destruct (_ <=? _).
Qed.

(** ** What one cycle computes *)

Section Reconcile.
Import VisionProcessor.
Implicit Types (S : InventoryState) (O : list Z) (now : string).

Lemma dict_get_count_ids (id : Z) (ids : list Z) O :
  id ∈ ids → dict_get id (count_ids ids O) 0 = count id O.
Proof.
  induction ids as [|k ids IH]; [by intros ?%elem_of_nil|].
  intros Hin. simpl. destruct (decide (k = id)) as [->|Hne]; [done|].
  apply IH. apply elem_of_cons in Hin as [?|?]; [congruence | done].
Qed.

(** The loop maps [reconcile_entry] over the items and keeps the first
    transaction it builds. *)
Lemma frame_loop_spec now O (new_counts : list (Z * Z)) (items : list (Z * Item))
    (transaction : option Transaction) :
  (∀ e, e ∈ items → dict_get e.1 new_counts 0 = count e.1 O) →
  frame_loop now new_counts items transaction =
    (reconcile_entry O <$> items,
     match transaction with
     | Some _ => transaction
     | None => transaction_for now O <$> head (changed_items items O)
     end).
Proof.
  revert transaction.
  induction items as [|[id d] items IH]; intros transaction Hget.
  - simpl. by destruct transaction.
  - assert (dict_get id new_counts 0 = count id O) as Hid
      by (apply (Hget (id, d)); left).
    assert (∀ e, e ∈ items → dict_get e.1 new_counts 0 = count e.1 O) as Hrest
      by (intros e He; apply Hget; by right).
    cbn [frame_loop]. rewrite Hid.
    unfold reconcile_entry at 1, changed_items, changed.
    cbn [fmap list_fmap List.filter fst snd].
    destruct (negb (count id O =? current_stock d)) eqn:Hch.
    + rewrite (IH _ Hrest). by destruct transaction.
    + rewrite (IH _ Hrest). done.
Qed.

Lemma process_frame_update_spec now S O :
  process_frame_update now S O =
    (reconcile_entry O <$> S,
     transaction_for now O <$> head (changed_items S O)).
Proof.
  unfold process_frame_update. apply frame_loop_spec.
  intros [id d] He. apply dict_get_count_ids.
  unfold keys. apply list_elem_of_fmap. by exists (id, d).
Qed.

Lemma reconcile_entry_converged O (e : Z * Item) :
  changed O (reconcile_entry O e) = false.
Proof.
  unfold reconcile_entry. destruct (changed O e) eqn:Hch; [|done].
  unfold changed. simpl. by rewrite Z.eqb_refl.
Qed.

Lemma reconcile_entry_unchanged O (e : Z * Item) :
  changed O e = false → reconcile_entry O e = e.
Proof. unfold reconcile_entry. by intros ->. Qed.

Lemma changed_items_nil S O :
  Forall (λ e, changed O e = false) S → changed_items S O = [].
Proof.
  unfold changed_items. induction 1 as [|e S He _ IH]; [done|].
  simpl. by rewrite He.
Qed.

Lemma keys_reconcile S O : keys (reconcile_entry O <$> S) = keys S.
Proof.
  unfold keys. induction S as [|e S IH]; [done|]. simpl. f_equal; [|done].
  unfold reconcile_entry. by destruct (changed O e).
Qed.

(** The two worked examples of the specification (section 8). *)
Example three_of_five_seen :
  process_frame_update "2026-11-03 10:00:00"
    [(1, mkItem "A" 2 5 "OK")] [1; 1; 1]
  = ([(1, mkItem "A" 2 3 "OK")],
     Some (mkTransaction "1" "A" "2026-11-03 10:00:00" "REMOVED" 2)).
Proof. reflexivity. Qed.

Example none_of_ten_seen :
  process_frame_update "2026-11-03 10:00:00"
    [(2, mkItem "B" 5 10 "OK")] []
  = ([(2, mkItem "B" 5 0 "CRITICAL")],
     Some (mkTransaction "2" "B" "2026-11-03 10:00:00" "REMOVED" 10)).
Proof. reflexivity. Qed.

(** Two observations that agree on the catalog are indistinguishable. *)
Lemma process_frame_update_ext now S O O' :
  (∀ id, id ∈ keys S → count id O = count id O') →
  process_frame_update now S O = process_frame_update now S O'.
Proof.
  rewrite !process_frame_update_spec. unfold keys. intros Hagree.
  assert (∀ e, e ∈ S → changed O e = changed O' e) as Hch.
  { intros e He. unfold changed. rewrite Hagree; [done|].
    apply list_elem_of_fmap. by exists e. }
  assert (∀ e, e ∈ S → reconcile_entry O e = reconcile_entry O' e) as Hre.
  { intros e He. unfold reconcile_entry. rewrite (Hch e He), Hagree; [done|].
    apply list_elem_of_fmap. by exists e. }
  assert (∀ e, e ∈ S → transaction_for now O e = transaction_for now O' e) as Htr.
  { intros e He. unfold transaction_for. rewrite Hagree; [done|].
    apply list_elem_of_fmap. by exists e. }
  clear Hagree. f_equal.
  - induction S as [|e S IH]; [done|]. simpl. rewrite Hre by left. f_equal.
    apply IH; intros; [apply Hch | apply Hre | apply Htr]; by right.
  - unfold changed_items.
    induction S as [|e S IH]; [done|]. simpl. rewrite <- (Hch e) by left.
    destruct (changed O e).
    + simpl. f_equal. apply Htr. left.
    + apply IH; intros; [apply Hch | apply Hre | apply Htr]; by right.
Qed.

End Reconcile.

(** ** The in-memory frame of [app_api.py] *)

Section Frame.
Import AppApi.

Lemma dict_lookup_values {K V : Type} `{EqDecision K} (k : K) (d : list (K * V)) (v : V) :
  dict_lookup k d = Some v → v ∈ values d.
Proof.
  unfold values. induction d as [|[k' v'] d IH]; simpl; [done|].
  destruct (decide (k' = k)).
  - intros [= ->]. left.
  - intros ?. right. by apply IH.
Qed.

(** A frame either leaves the state alone or rewrites the target item
    with [apply_change] and appends one transaction. *)
Lemma process_vision_frame_cases now dr st st' :
  process_vision_frame now dr st = Some st' →
  st' = st ∧ frame_fires dr st = false
  ∨ ∃ item change t,
      dict_lookup (target_id dr) (inventory_db st) = Some item ∧
      (change = 1 ∨ change = -1 ∧ 0 < current_stock item) ∧
      inventory_db st' =
        dict_alter (λ _, apply_change change item) (target_id dr) (inventory_db st) ∧
      transaction_history st' = transaction_history st ++ [t] ∧
      frame_fires dr st = true.
Proof.
  unfold process_vision_frame, frame_fires.
  destruct (negb (is_NONE (picked_action dr)) && random_lt_0_3 (random_k dr)) eqn:Hgo;
    [|intros [= <-]; by left].
  destruct (dict_lookup (target_id dr) (inventory_db st)) as [item|] eqn:Hlk; [|done].
  destruct (picked_action dr) eqn:Hact; simpl in *; try done.
  - intros [= <-]. right. eexists item, 1, _. simpl. eauto 10.
  - destruct (current_stock item <=? 0) eqn:Hle; simpl.
    + intros [= <-]. by left.
    + intros [= <-]. right. eexists item, (-1), _. simpl.
      repeat split; try done. right. split; [done|]. lia.
Qed.

Lemma process_vision_frame_total now dr st :
  is_Some (dict_lookup (target_id dr) (inventory_db st)) →
  is_Some (process_vision_frame now dr st).
Proof.
  intros [item Hlk]. unfold process_vision_frame. rewrite Hlk.
  destruct (negb _ && _); [|done].
  destruct (is_REMOVE _ && _); simpl; [done|].
  destruct (is_ADD _); simpl; done.
Qed.

(** A property of items that [apply_change] establishes on the target
    is kept by a frame. *)
Lemma process_vision_frame_Forall (P : InventoryItem → Prop) now dr st st' :
  (∀ item change, P item → change = 1 ∨ change = -1 ∧ 0 < current_stock item →
     P (apply_change change item)) →
  Forall P (values (inventory_db st)) →
  process_vision_frame now dr st = Some st' →
  Forall P (values (inventory_db st')).
Proof.
  intros Hstep Hall Hrun.
  apply process_vision_frame_cases in Hrun
    as [[-> _] | (item & change & t & Hlk & Hch & -> & _ & _)]; [done|].
  apply Forall_values_dict_alter; [|done].
  apply Hstep; [|done].
  rewrite Forall_forall in Hall. apply Hall. by eapply dict_lookup_values.
Qed.

Lemma initial_state_tier_ok :
  Forall tier_ok (values (inventory_db initial_state)).
Proof. repeat constructor. Qed.

End Frame.

(** ** Transactions per cycle *)

Section Transactions.
Import VisionProcessor.

(** C1, as stated, fails: with the default state and an empty
    observation all three items change, and the cycle hands back one
    transaction. *)
Lemma one_transaction_for_three_changes :
  length (changed_items default_state []) = 3%nat ∧
  length (transactions (process_frame_update "2026-11-03 10:00:00" default_state []))
    ≠ length (changed_items default_state []).
Proof. split; [reflexivity | vm_compute; lia]. Qed.

(** C1, amended: a cycle hands back at most one transaction, the one of
    the first changed item in catalog order; it hands back none exactly
    when no item changed. *)
Theorem transaction_of_first_change now (S : InventoryState) (O : list Z) :
  transactions (process_frame_update now S O)
    = transaction_for now O <$> take 1 (changed_items S O)
  ∧ length (transactions (process_frame_update now S O))
    = Nat.min 1 (length (changed_items S O)).
Proof.
  rewrite process_frame_update_spec. unfold transactions. simpl.
  by destruct (changed_items S O).
Qed.

(** C4, as stated, fails: in the default state under an empty
    observation item 2 has a non-zero delta, and no transaction is
    built for it. *)
Lemma no_transaction_for_second_change :
  let S := default_state in
  let O := [] in
  let d := mkItem "Accessory Kit" 5 10 "OK" in
  S !! 1%nat = Some (2, d) ∧
  count 2 O - current_stock d ≠ 0 ∧
  ¬ ∃ t, t ∈ transactions (process_frame_update "2026-11-03 10:00:00" S O)
         ∧ item_id t = pretty 2.
Proof.
  cbv zeta. split; [reflexivity|]. split; [vm_compute; discriminate|].
  intros (t & Ht & Hid). vm_compute in Ht.
  apply list_elem_of_singleton in Ht. subst t. vm_compute in Hid. discriminate.
Qed.

(** C4, amended: with [delta = observed_count - old_stock], an item
    with [delta = 0] is left as it was; an item with [delta <> 0] gets
    the observed count as stock and the tier evaluated from it; and the
    first such item in catalog order gets the cycle's transaction, with
    action ADDED for [delta > 0], REMOVED for [delta < 0], and magnitude
    [|delta|]. *)
Theorem reconcile_item now (S : InventoryState) (O : list Z)
    (i : nat) (id : Z) (d : Item) :
  S !! i = Some (id, d) →
  let delta := count id O - current_stock d in
  (delta = 0 → (process_frame_update now S O).1 !! i = Some (id, d))
  ∧ (delta ≠ 0 →
     (process_frame_update now S O).1 !! i
       = Some (id, {| name := name d;
                      min_stock := min_stock d;
                      current_stock := count id O;
                      alert_status :=
                        tier_str (evaluate (count id O) (min_stock d)) |})
     ∧ ((∀ j e, (j < i)%nat → S !! j = Some e →
                count e.1 O - current_stock e.2 = 0) →
        (process_frame_update now S O).2
          = Some {| item_id := pretty id;
                    item_name := name d;
                    timestamp := now;
                    action := if delta >? 0 then "ADDED" else "REMOVED";
                    quantity_change := Z.abs delta |})).
Proof.
  intros Hi delta. rewrite process_frame_update_spec. cbn [fst snd].
  rewrite list_lookup_fmap, Hi. simpl.
  unfold reconcile_entry, changed. simpl. split.
  - intros Hd. assert ((count id O =? current_stock d) = true) as -> by lia. done.
  - intros Hd. assert ((count id O =? current_stock d) = false) as Hne by lia.
    rewrite Hne. simpl. split.
    + unfold apply_count. cbn [set_alert_status set_current_stock name min_stock current_stock].
      by rewrite new_status_of_evaluate.
    + intros Hfirst. unfold changed_items.
      assert (head (List.filter (changed O) S) = Some (id, d)) as ->; [|done].
      clear delta Hd. revert i Hi Hfirst.
      induction S as [|e S IH]; intros i Hi Hfirst; [done|].
      destruct i as [|i]; simpl in *.
      * injection Hi as ->. unfold changed. simpl. by rewrite Hne.
      * assert (changed O e = false) as ->.
        { unfold changed. specialize (Hfirst 0%nat e ltac:(lia) eq_refl).
          assert ((count e.1 O =? current_stock e.2) = true) as -> by lia. done. }
        apply (IH i Hi). intros j e' Hj He'.
        apply (Hfirst (Datatypes.S j) e'); [lia | done].
Qed.

Lemma reconcile_item_witness :
  default_state !! 0%nat = Some (1, mkItem "Laptop Box" 2 5 "OK") ∧
  (process_frame_update "2026-11-03 10:00:00" default_state [1; 1; 1]).2
    = Some {| item_id := "1";
              item_name := "Laptop Box";
              timestamp := "2026-11-03 10:00:00";
              action := "REMOVED";
              quantity_change := 2 |}.
Proof.
  split; [reflexivity|].
  refine (proj2 (proj2
    (reconcile_item "2026-11-03 10:00:00" default_state [1; 1; 1] 0
       1 (mkItem "Laptop Box" 2 5 "OK") eq_refl) _) _).
  - vm_compute. discriminate.
  - intros j e Hj. lia.
Defined.

End Transactions.

(** ** Invariants of the snapshot *)

Section Invariants.
Import VisionProcessor.

(** A property that [apply_count] establishes and that the input
    records have holds of every record of the result. *)
Lemma process_frame_update_Forall (P : Item → Prop) now
    (S : InventoryState) (O : list Z) :
  (∀ id d, (id, d) ∈ S → P (apply_count (count id O) d)) →
  Forall (λ e, P e.2) S →
  Forall (λ e, P e.2) (process_frame_update now S O).1.
Proof.
  intros Hnew Hall. rewrite process_frame_update_spec. cbn [fst].
  apply Forall_fmap, Forall_forall. intros [id d] He. simpl.
  unfold reconcile_entry. destruct (changed O (id, d)); simpl.
  - by apply Hnew.
  - rewrite Forall_forall in Hall. apply (Hall (id, d) He).
Qed.

(** C2, as stated, fails: a record that enters the cycle with a stale
    tier and an unchanged count leaves it with the stale tier. *)
Lemma stale_tier_survives :
  let S := [(1, mkItem "Laptop Box" 2 1 "OK")] in
  let O := [1] in
  ¬ Forall (λ e, tier_ok e.2)
      (process_frame_update "2026-11-03 10:00:00" S O).1.
Proof.
  cbv zeta. intros H. apply Forall_cons in H as [H _].
  vm_compute in H. discriminate.
Qed.

(** C2, amended: every record whose count the cycle changed carries
    the tier evaluated from its new stock (Critical at 0, else Low at or
    below the minimum, else Ok); an unchanged record keeps the tier it
    came with, so the returned snapshot satisfies the tier invariant
    whenever the input snapshot does; the in-memory frame of the API
    keeps the invariant likewise. *)
Theorem tier_invariant now (S : InventoryState) (O : list Z) :
  (∀ i e, S !! i = Some e → changed O e = true →
     ∃ d', (process_frame_update now S O).1 !! i = Some (e.1, d') ∧ tier_ok d')
  ∧ (Forall (λ e, tier_ok e.2) S →
     Forall (λ e, tier_ok e.2) (process_frame_update now S O).1)
  ∧ (∀ dr st st',
       Forall AppApi.tier_ok (values (AppApi.inventory_db st)) →
       AppApi.process_vision_frame now dr st = Some st' →
       Forall AppApi.tier_ok (values (AppApi.inventory_db st'))).
Proof.
  split; [|split].
  - intros i e Hi Hch. rewrite process_frame_update_spec. cbn [fst].
    rewrite list_lookup_fmap, Hi. simpl. unfold reconcile_entry. rewrite Hch.
    eexists. split; [done|]. apply apply_count_tier_ok.
  - apply process_frame_update_Forall. intros. apply apply_count_tier_ok.
  - intros dr st st'. apply process_vision_frame_Forall.
    intros. apply apply_change_tier_ok.
Qed.

Lemma tier_invariant_witness :
  Forall (λ e, tier_ok e.2) default_state ∧
  Forall (λ e, tier_ok e.2)
    (process_frame_update "2026-11-03 10:00:00" default_state [1; 2; 2]).1 ∧
  Forall AppApi.tier_ok (values (AppApi.inventory_db AppApi.initial_state)) ∧
  Forall AppApi.tier_ok
    (values (AppApi.inventory_db
       (AppApi.mkState
          [(1, AppApi.mkInventoryItem 1 "Laptop Box" 2 4 "OK");
           (2, AppApi.mkInventoryItem 2 "Accessory Kit" 5 10 "OK");
           (3, AppApi.mkInventoryItem 3 "Monitor Stand" 1 3 "OK")]
          [AppApi.mkTransaction 1 "Laptop Box" "2026-11-03 10:00:00" "REMOVEED" (-1)]))).
Proof.
  assert (Forall (λ e, tier_ok e.2) default_state) as H0
    by (repeat constructor).
  pose proof (tier_invariant "2026-11-03 10:00:00" default_state [1; 2; 2])
    as (_ & Hpre & Hapi).
  split; [exact H0|]. split; [exact (Hpre H0)|].
  split; [exact initial_state_tier_ok|].
  apply (Hapi (AppApi.mkDraws 1 AppApi.REMOVE 0) AppApi.initial_state);
    [exact initial_state_tier_ok | reflexivity].
Defined.

(** C5: if no stock of the input snapshot is negative, no stock of the
    snapshot a cycle returns is; and the in-memory frame of the API,
    which always runs when the target is in the store, keeps every
    stock non-negative as well. *)
Theorem no_negative_stock now (S : InventoryState) (O : list Z)
    (dr : AppApi.Draws) (st : AppApi.State) :
  Forall (λ e, stock_nonneg e.2) S →
  Forall AppApi.stock_nonneg (values (AppApi.inventory_db st)) →
  Forall (λ e, stock_nonneg e.2) (process_frame_update now S O).1
  ∧ (∀ st', AppApi.process_vision_frame now dr st = Some st' →
       Forall AppApi.stock_nonneg (values (AppApi.inventory_db st')))
  ∧ (is_Some (dict_lookup (AppApi.target_id dr) (AppApi.inventory_db st)) →
     is_Some (AppApi.process_vision_frame now dr st)).
Proof.
  intros HS Hst. split; [|split].
  - apply process_frame_update_Forall; [|done].
    intros id d _. unfold stock_nonneg, apply_count. simpl. apply count_nonneg.
  - intros st'. apply process_vision_frame_Forall; [|done].
    intros item change Hitem Hch. unfold AppApi.stock_nonneg in *.
    unfold AppApi.apply_change. simpl. lia.
  - apply process_vision_frame_total.
Qed.

Lemma no_negative_stock_witness :
  Forall (λ e, stock_nonneg e.2)
    (process_frame_update "2026-11-03 10:00:00" default_state [3; 3; 7]).1
  ∧ is_Some (AppApi.process_vision_frame "2026-11-03 10:00:00"
               (AppApi.mkDraws 2 AppApi.REMOVE 5) AppApi.initial_state).
Proof.
  assert (Forall (λ e, stock_nonneg e.2) default_state) as HS.
  { repeat constructor; unfold stock_nonneg; simpl; lia. }
  assert (Forall AppApi.stock_nonneg
            (values (AppApi.inventory_db AppApi.initial_state))) as Hst.
  { repeat constructor; unfold AppApi.stock_nonneg; simpl; lia. }
  pose proof (no_negative_stock "2026-11-03 10:00:00" default_state [3; 3; 7]
                (AppApi.mkDraws 2 AppApi.REMOVE 5) AppApi.initial_state HS Hst)
    as (Hpure & _ & Htot).
  split; [exact Hpure|]. apply Htot. by eexists.
Defined.

End Invariants.

(** ** Relational properties of a cycle *)

Section Relational.
Import VisionProcessor.

(** C6: running the cycle again, on the snapshot it returned and with
    the same observation, builds no transaction and returns that
    snapshot unchanged. *)
Theorem reconcile_idempotent now now' (S : InventoryState) (O : list Z) :
  let r := process_frame_update now S O in
  process_frame_update now' r.1 O = (r.1, None)
  ∧ transactions (process_frame_update now' r.1 O) = [].
Proof.
  cbv zeta.
  assert (process_frame_update now' (process_frame_update now S O).1 O
          = ((process_frame_update now S O).1, None)) as Heq.
  { rewrite (process_frame_update_spec now S O). cbn [fst].
    rewrite process_frame_update_spec.
    assert (Forall (λ e, changed O e = false) (reconcile_entry O <$> S)) as Hconv.
    { apply Forall_fmap, Forall_forall. intros e _. apply reconcile_entry_converged. }
    rewrite (changed_items_nil _ _ Hconv). simpl. f_equal.
    rewrite <- list_fmap_compose. apply list_fmap_ext. intros _ e _. simpl.
    apply reconcile_entry_unchanged, reconcile_entry_converged. }
  split; [exact Heq|]. unfold transactions. by rewrite Heq.
Qed.

(** C7, as stated, fails: the transaction carries the clock reading of
    the invocation, so the same snapshot and observation reconciled at
    two different seconds give two different results. *)
Lemma timestamp_differs :
  process_frame_update "2026-11-03 10:00:00" default_state []
  ≠ process_frame_update "2026-11-03 10:00:01" default_state [].
Proof. vm_compute. discriminate. Qed.

(** C7, amended: two invocations on the same snapshot and observation
    return the same updated snapshot, and transactions that agree in
    every field but the timestamp, which is the clock reading of each
    invocation. *)
Theorem reconcile_deterministic_up_to_clock now1 now2
    (S : InventoryState) (O : list Z) :
  (process_frame_update now1 S O).1 = (process_frame_update now2 S O).1
  ∧ (process_frame_update now2 S O).2
    = set_timestamp now2 <$> (process_frame_update now1 S O).2
  ∧ (∀ t, (process_frame_update now1 S O).2 = Some t → timestamp t = now1).
Proof.
  rewrite !process_frame_update_spec. cbn [fst snd].
  split; [done|]. destruct (head (changed_items S O)); simpl; [|done].
  split; [done|]. by intros t [= <-].
Qed.

(** C8: the snapshot a cycle returns has the identifiers of the input
    snapshot, in the same order, and the result is the one obtained from
    the observation with every identifier outside the catalog struck
    out. *)
Theorem unknown_ids_ignored now (S : InventoryState) (O : list Z) :
  keys (process_frame_update now S O).1 = keys S
  ∧ process_frame_update now S O
    = process_frame_update now S (filter (λ x, x ∈ keys S) O).
Proof.
  split.
  - rewrite process_frame_update_spec. apply keys_reconcile.
  - apply process_frame_update_ext. intros id Hid. symmetry.
    by apply (count_filter (λ x, x ∈ keys S)).
Qed.

(** One occurrence of an identifier outside the catalog, anywhere in
    the observation, changes nothing. *)
Lemma unknown_id_no_effect now (S : InventoryState) (O1 O2 : list Z) (x : Z) :
  x ∉ keys S →
  process_frame_update now S (O1 ++ x :: O2) = process_frame_update now S (O1 ++ O2).
Proof.
  intros Hx. apply process_frame_update_ext. intros id Hid.
  unfold count. f_equal. rewrite !count_occ_app. simpl.
  destruct (Z.eq_dec x id) as [->|]; done.
Qed.

End Relational.

(** ** Observations without a known identifier *)

Section Unrecognised.
Import VisionProcessor.

Lemma reconcile_entry_nil (e : Z * Item) : reconcile_entry [] e = clear_entry e.
Proof.
  unfold reconcile_entry, clear_entry, changed. rewrite count_nil, Z.eqb_sym.
  destruct (current_stock e.2 =? 0); [done|]. simpl.
  unfold apply_count, new_status_of. simpl. by destruct (0 <=? min_stock e.2).
Qed.

Lemma clear_entry_fixed (e : Z * Item) :
  clear_entry e = e ↔ current_stock e.2 = 0.
Proof.
  unfold clear_entry. destruct (current_stock e.2 =? 0) eqn:Hz.
  - split; [lia | done].
  - split; [|lia]. destruct e as [id d]. simpl in *.
    intros [= Hd]. rewrite <- Hd in Hz. simpl in Hz. lia.
Qed.

(** C9, as stated, fails: the empty observation on the default state
    builds a transaction and changes the snapshot. *)
Lemma empty_observation_changes_stock :
  let r := process_frame_update "2026-11-03 10:00:00" default_state [] in
  (∀ x : Z, x ∈ [] → x ∉ keys default_state)
  ∧ transactions r ≠ [] ∧ r.1 ≠ default_state.
Proof.
  cbv zeta. split; [by intros x ?%elem_of_nil|].
  split; vm_compute; discriminate.
Qed.

(** C9, amended: an observation none of whose identifiers is in the
    catalog (the empty one included) is ordinary input: the cycle
    completes and reads every item as seen zero times, so every stock
    that was not 0 becomes 0 with tier CRITICAL; it builds no
    transaction, and returns the snapshot unchanged, exactly when every
    stock was 0 already. *)
Theorem unrecognised_observation now (S : InventoryState) (O : list Z) :
  (∀ x, x ∈ O → x ∉ keys S) →
  process_frame_update now S O = process_frame_update now S []
  ∧ (process_frame_update now S O).1 = clear_entry <$> S
  ∧ ((process_frame_update now S O).2 = None
     ↔ Forall (λ e, current_stock e.2 = 0) S)
  ∧ ((process_frame_update now S O).1 = S
     ↔ Forall (λ e, current_stock e.2 = 0) S).
Proof.
  intros Hunk.
  assert (process_frame_update now S O = process_frame_update now S []) as ->.
  { apply process_frame_update_ext. intros id Hid. rewrite count_nil.
    apply count_absent. intros Hin. by apply (Hunk id). }
  clear Hunk. split; [done|]. rewrite process_frame_update_spec. cbn [fst snd].
  assert (reconcile_entry [] <$> S = clear_entry <$> S) as ->.
  { apply list_fmap_ext. intros _ e _. apply reconcile_entry_nil. }
  split; [done|]. split.
  - unfold changed_items. induction S as [|e S IH]; [done|].
    simpl. unfold changed at 1. rewrite count_nil, Z.eqb_sym.
    destruct (current_stock e.2 =? 0) eqn:Hz; simpl.
    + rewrite IH, Forall_cons. split; [split; [lia|done] | by intros [_ ?]].
    + split; [done|]. intros [? _]%Forall_cons. lia.
  - induction S as [|e S IH]; [done|].
    rewrite fmap_cons, Forall_cons, <- IH, <- clear_entry_fixed.
    split; [by intros [= ? ?] | by intros [-> ->]].
Qed.

Lemma unrecognised_observation_witness :
  (∀ x : Z, x ∈ [7; 9] → x ∉ keys default_state)
  ∧ (process_frame_update "2026-11-03 10:00:00" default_state [7; 9]).1
    = clear_entry <$> default_state.
Proof.
  assert (∀ x : Z, x ∈ [7; 9] → x ∉ keys default_state) as H.
  { intros x Hx Hk. vm_compute in Hk.
    repeat (apply elem_of_cons in Hx as [->|Hx]);
      [| | by apply elem_of_nil in Hx];
      repeat (apply elem_of_cons in Hk as [Hk|Hk]; [discriminate|]);
      by apply elem_of_nil in Hk. }
  split; [exact H|].
  exact (proj1 (proj2
    (unrecognised_observation "2026-11-03 10:00:00" default_state [7; 9] H))).
Defined.

End Unrecognised.

(** ** The read endpoints *)

Section Reads.
Import AppApi.

(** Every identifier the simulation can pick is in the initial store,
    and a frame never adds or removes a key. *)
Lemma process_vision_frame_runs now dr st :
  valid_draws dr →
  keys (inventory_db st) = keys (inventory_db initial_state) →
  ∃ st', process_vision_frame now dr st = Some st'
         ∧ keys (inventory_db st') = keys (inventory_db st).
Proof.
  intros [Htgt _] Hkeys.
  destruct (process_vision_frame_total now dr st) as [st' Hrun].
  { apply dict_lookup_is_Some. rewrite Hkeys.
    vm_compute in Htgt |- *.
    repeat (apply elem_of_cons in Htgt as [->|Htgt]);
      [repeat constructor .. | by apply elem_of_nil in Htgt]. }
  exists st'. split; [done|].
  apply process_vision_frame_cases in Hrun
    as [[-> _] | (item & change & t & _ & _ & -> & _ & _)]; [done|].
  apply keys_dict_alter.
Qed.

(** C3, as stated, fails: a status read whose frame fires changes the
    store and the log, and the next read returns something else. *)
Lemma status_read_mutates :
  let now := "2026-11-03 10:00:00" in
  let dr := mkDraws 1 ADD 0 in
  ∃ st1 r1 st2 r2,
    get_inventory_status now dr initial_state = Some (st1, r1)
    ∧ get_inventory_status now dr st1 = Some (st2, r2)
    ∧ inventory_db st1 ≠ inventory_db initial_state
    ∧ transaction_history st1 ≠ transaction_history initial_state
    ∧ r1 ≠ r2.
Proof.
  cbv zeta. do 4 eexists.
  split; [reflexivity|]. split; [reflexivity|].
  repeat split; vm_compute; discriminate.
Qed.

(** C3, amended: a status read runs one simulated frame and returns the
    items of the store after it; the store and the log are unchanged
    when that frame does not fire (action NONE, a random draw not below
    0.3, or a REMOVE of an item whose stock is not positive), and
    otherwise the log grows by one transaction.  A read of the
    transaction history changes neither the store nor the log, and
    reading it again returns the same result. *)
Theorem status_read_runs_frame now dr st :
  is_Some (dict_lookup (target_id dr) (inventory_db st)) →
  (∃ st',
     process_vision_frame now dr st = Some st'
     ∧ get_inventory_status now dr st = Some (st', values (inventory_db st'))
     ∧ (frame_fires dr st = false → st' = st)
     ∧ (frame_fires dr st = true →
        ∃ item change t,
          dict_lookup (target_id dr) (inventory_db st) = Some item
          ∧ (change = 1 ∨ change = -1)
          ∧ inventory_db st'
            = dict_alter (λ _, apply_change change item)
                (target_id dr) (inventory_db st)
          ∧ current_stock (apply_change change item) = current_stock item + change
          ∧ transaction_history st' = transaction_history st ++ [t]
          ∧ st' ≠ st))
  ∧ (get_transaction_history st).1 = st
  ∧ (get_transaction_history (get_transaction_history st).1).2
    = (get_transaction_history st).2.
Proof.
  intros Hlk. split; [|done].
  destruct (process_vision_frame_total now dr st Hlk) as [st' Hrun].
  exists st'. unfold get_inventory_status. rewrite Hrun.
  split; [done|]. split; [done|].
  apply process_vision_frame_cases in Hrun
    as [[-> Hf] | (item & change & t & Hitem & Hch & Hdb & Hlog & Hf)]; rewrite Hf.
  - split; [done | discriminate].
  - split; [discriminate|]. intros _. exists item, change, t.
    repeat split; try done.
    + destruct Hch as [?|[? _]]; [by left | by right].
    + intros ->. apply (f_equal length) in Hlog.
      rewrite length_app in Hlog. simpl in Hlog. lia.
Qed.

Lemma status_read_runs_frame_witness :
  is_Some (dict_lookup 3 (inventory_db initial_state))
  ∧ ∃ st',
      get_inventory_status "2026-11-03 10:00:00" (mkDraws 3 NONE 0) initial_state
        = Some (st', values (inventory_db st'))
      ∧ st' = initial_state.
Proof.
  assert (is_Some (dict_lookup 3 (inventory_db initial_state))) as H
    by (by eexists).
  split; [exact H|].
  destruct (proj1 (status_read_runs_frame "2026-11-03 10:00:00"
                     (mkDraws 3 NONE 0) initial_state H))
    as (st' & _ & Hget & Hidle & _).
  exists st'. split; [exact Hget|]. apply Hidle. reflexivity.
Defined.

End Reads.

(** ** The cycle on references: the input objects are not written to *)

Section References.
Import VisionProcessor.
Implicit Types (h pre post : Heap.heap) (S : InventoryState).

Lemma insert_middle {A} (l1 l2 : list A) (x y : A) :
  <[length l1 := y]> (l1 ++ x :: l2) = l1 ++ y :: l2.
Proof.
  replace (length l1) with (length l1 + 0)%nat by lia.
  by rewrite insert_app_r.
Qed.

Lemma read_items_app h ext (es : list (Z * Heap.loc)) S :
  Heap.read_items h es = Some S → Heap.read_items (h ++ ext) es = Some S.
Proof.
  revert S. induction es as [|[id l] es IH]; intros S; simpl; [done|].
  destruct (h !! l) as [[d|?]|] eqn:Hl; try done.
  destruct (Heap.read_items h es) as [S'|]; [|done].
  intros [= <-]. by rewrite (lookup_app_l_Some _ _ _ _ Hl), (IH S').
Qed.

Lemma keys_fresh_entries base S : keys (Heap.fresh_entries base S) = keys S.
Proof.
  unfold Heap.fresh_entries, keys. apply fst_zip.
  rewrite length_fmap, length_seq. lia.
Qed.

Lemma fresh_entries_above base S :
  Forall (λ e, (base ≤ e.2)%nat) (Heap.fresh_entries base S).
Proof.
  apply Forall_forall. intros [id l] He. simpl.
  apply elem_of_zip_r, elem_of_seq in He. lia.
Qed.

Lemma read_items_fresh pre post S :
  Heap.read_items (pre ++ (Heap.ItemDict <$> values S) ++ post)
    (Heap.fresh_entries (length pre) S) = Some S.
Proof.
  unfold Heap.fresh_entries, keys, values.
  revert pre. induction S as [|[id d] S IH]; intros pre; [done|].
  rewrite !fmap_cons. cbn [length seq zip_with Heap.read_items fst snd app].
  rewrite list_lookup_middle by done.
  specialize (IH (pre ++ [Heap.ItemDict d])).
  rewrite length_app, Nat.add_1_r, <- app_assoc in IH. cbn [length app] in IH.
  by rewrite IH.
Qed.

(** Line 93 allocates one new object per entry and writes to none. *)
Lemma copy_items_spec h (es : list (Z * Heap.loc)) S :
  Heap.read_items h es = Some S →
  Heap.copy_items es h
    = Some (Heap.fresh_entries (length h) S, h ++ (Heap.ItemDict <$> values S)).
Proof.
  unfold Heap.fresh_entries, keys, values.
  revert h S. induction es as [|[id l] es IH]; intros h S; simpl.
  - intros [= <-]. simpl. unfold Heap.ret. by rewrite app_nil_r.
  - destruct (h !! l) as [[d|?]|] eqn:Hl; try done.
    destruct (Heap.read_items h es) as [S'|] eqn:HS'; [|done].
    intros [= <-].
    unfold Heap.bind, Heap.get_item, Heap.alloc. rewrite Hl.
    rewrite (IH (h ++ [Heap.ItemDict d]) S')
      by (by apply read_items_app).
    unfold Heap.ret. simpl.
    by rewrite length_app, Nat.add_1_r, <- app_assoc.
Qed.

(** One operation of the heap monad at a time. *)
Lemma bind_Some {A B} (m : Heap.M A) (k : A → Heap.M B) h a h' :
  m h = Some (a, h') → Heap.bind m k h = k a h'.
Proof. unfold Heap.bind. by intros ->. Qed.

Lemma get_item_middle pre post (d : Item) :
  Heap.get_item (length pre) (pre ++ Heap.ItemDict d :: post)
  = Some (d, pre ++ Heap.ItemDict d :: post).
Proof. unfold Heap.get_item. by rewrite list_lookup_middle. Qed.

Lemma set_item_middle pre post (f : Item → Item) (d : Item) :
  Heap.set_item (length pre) f (pre ++ Heap.ItemDict d :: post)
  = Some ((), pre ++ Heap.ItemDict (f d) :: post).
Proof.
  unfold Heap.set_item. by rewrite list_lookup_middle, insert_middle.
Qed.

Ltac heap_step :=
  erewrite bind_Some by (apply get_item_middle || apply set_item_middle).

(** The loop on references does to the fresh objects what the loop on
    values computes, and touches nothing else. *)
Lemma heap_frame_loop_spec now (new_counts : list (Z * Z)) S
    (transaction : option Transaction) pre post :
  Heap.frame_loop now new_counts (Heap.fresh_entries (length pre) S) transaction
    (pre ++ (Heap.ItemDict <$> values S) ++ post)
  = Some ((frame_loop now new_counts S transaction).2,
          pre ++ (Heap.ItemDict <$>
                    values (frame_loop now new_counts S transaction).1) ++ post).
Proof.
  unfold Heap.fresh_entries, keys, values.
  revert pre transaction.
  induction S as [|[id d] S IH]; intros pre transaction; [done|].
  rewrite !fmap_cons.
  cbn [length seq zip_with fst snd Heap.frame_loop frame_loop app].
  heap_step.
  destruct (negb (dict_get id new_counts 0 =? current_stock d)) eqn:Hch.
  - do 4 heap_step.
    match goal with
    | |- Heap.frame_loop _ _ _ ?t (_ ++ ?o :: _) = _ =>
        specialize (IH (pre ++ [o]) t)
    end.
    rewrite length_app, Nat.add_1_r, <- !app_assoc in IH.
    cbn [length app] in IH. unfold apply_count.
    unfold apply_count in IH. rewrite IH.
    by destruct (frame_loop now new_counts S _).
  - specialize (IH (pre ++ [Heap.ItemDict d]) transaction).
    rewrite length_app, Nat.add_1_r, <- !app_assoc in IH.
    cbn [length app] in IH. rewrite IH.
    by destruct (frame_loop now new_counts S _).
Qed.

(** The whole function on references refines the function on values:
    it extends the heap by the updated copies and the new state
    dictionary. *)
Lemma heap_process_frame_update_spec now (current_state : Heap.loc)
    (tracked_ids : list Z) h S :
  Heap.snapshot h current_state = Some S →
  let r := process_frame_update now S tracked_ids in
  Heap.process_frame_update now current_state tracked_ids h
  = Some (((length h + length S)%nat, r.2),
          h ++ (Heap.ItemDict <$> values r.1)
            ++ [Heap.StateDict (Heap.fresh_entries (length h) S)]).
Proof.
  intros Hsnap r. unfold Heap.snapshot in Hsnap.
  destruct (h !! current_state) as [[?|es]|] eqn:Hcs; try done.
  unfold Heap.process_frame_update.
  unfold Heap.bind at 1, Heap.get_state at 1. rewrite Hcs.
  unfold Heap.bind at 1. rewrite (copy_items_spec _ _ _ Hsnap).
  unfold Heap.bind at 1, Heap.alloc.
  assert (length (h ++ (Heap.ItemDict <$> values S))
          = (length h + length S)%nat) as Hlen.
  { unfold values. by rewrite length_app, !length_fmap. }
  rewrite Hlen.
  assert (((h ++ (Heap.ItemDict <$> values S))
             ++ [Heap.StateDict (Heap.fresh_entries (length h) S)])
            !! (length h + length S)%nat
          = Some (Heap.StateDict (Heap.fresh_entries (length h) S))) as Hnew.
  { by apply list_lookup_middle. }
  unfold Heap.bind at 1, Heap.get_state at 1. rewrite Hnew.
  unfold Heap.bind at 1, Heap.get_state at 1. rewrite Hnew.
  rewrite keys_fresh_entries.
  unfold Heap.bind. rewrite <- app_assoc.
  rewrite heap_frame_loop_spec. done.
Qed.

End References.

Section InputUntouched.
Import VisionProcessor.

Lemma snapshot_app (h ext : Heap.heap) (l : Heap.loc) (S : InventoryState) :
  Heap.snapshot h l = Some S → Heap.snapshot (h ++ ext) l = Some S.
Proof.
  unfold Heap.snapshot.
  destruct (h !! l) as [[?|es]|] eqn:Hl; try done.
  intros Hread. rewrite (lookup_app_l_Some _ _ _ _ Hl).
  by apply read_items_app.
Qed.

(** C10: the cycle writes to no object that existed before the call.
    From a heap in which the argument denotes the snapshot [S] it
    returns normally, every address of the old heap holds what it held,
    the argument still denotes [S], and the state returned is a new
    dictionary of new objects that denotes the updated snapshot. *)
Theorem input_snapshot_untouched now (current_state : Heap.loc)
    (tracked_ids : list Z) (h : Heap.heap) (S : InventoryState) :
  Heap.snapshot h current_state = Some S →
  ∃ new_state transaction h',
    Heap.process_frame_update now current_state tracked_ids h
      = Some ((new_state, transaction), h')
    ∧ (∀ l, (l < length h)%nat → h' !! l = h !! l)
    ∧ Heap.snapshot h' current_state = Some S
    ∧ (length h ≤ new_state)%nat
    ∧ (∃ entries, h' !! new_state = Some (Heap.StateDict entries)
                  ∧ Forall (λ e, (length h ≤ e.2)%nat) entries)
    ∧ Heap.snapshot h' new_state
      = Some (process_frame_update now S tracked_ids).1
    ∧ transaction = (process_frame_update now S tracked_ids).2.
Proof.
  intros Hsnap.
  pose proof (heap_process_frame_update_spec now current_state tracked_ids h S Hsnap)
    as Hrun. cbv zeta in Hrun.
  set (r := process_frame_update now S tracked_ids) in *.
  do 3 eexists. split; [exact Hrun|].
  assert (length r.1 = length S) as Hlen.
  { subst r. rewrite process_frame_update_spec. apply length_fmap. }
  assert ((h ++ (Heap.ItemDict <$> values r.1)
             ++ [Heap.StateDict (Heap.fresh_entries (length h) S)])
            !! (length h + length S)%nat
          = Some (Heap.StateDict (Heap.fresh_entries (length h) S))) as Hnew.
  { rewrite app_assoc. apply list_lookup_middle.
    unfold values. by rewrite length_app, !length_fmap, Hlen. }
  split; [|split; [|split; [|split; [|split]]]].
  - intros l Hl. by rewrite lookup_app_l.
  - by apply snapshot_app.
  - lia.
  - eexists. split; [exact Hnew|]. apply fresh_entries_above.
  - unfold Heap.snapshot. rewrite Hnew.
    assert (keys r.1 = keys S) as Hkeys.
    { subst r. rewrite process_frame_update_spec. apply keys_reconcile. }
    assert (Heap.fresh_entries (length h) S = Heap.fresh_entries (length h) r.1)
      as -> by (unfold Heap.fresh_entries; by rewrite Hkeys, Hlen).
    apply read_items_fresh.
  - done.
Qed.

Lemma input_snapshot_untouched_witness :
  let h := [Heap.ItemDict (mkItem "Laptop Box" 2 5 "OK");
            Heap.ItemDict (mkItem "Accessory Kit" 5 10 "OK");
            Heap.StateDict [(1, 0%nat); (2, 1%nat)]] in
  let S := [(1, mkItem "Laptop Box" 2 5 "OK");
            (2, mkItem "Accessory Kit" 5 10 "OK")] in
  Heap.snapshot h 2%nat = Some S
  ∧ ∃ new_state transaction h',
      Heap.process_frame_update "2026-11-03 10:00:00" 2%nat [1; 2; 2] h
        = Some ((new_state, transaction), h')
      ∧ Heap.snapshot h' 2%nat = Some S.
Proof.
  cbv zeta. split; [reflexivity|].
  destruct (input_snapshot_untouched "2026-11-03 10:00:00" 2%nat [1; 2; 2]
              [Heap.ItemDict (mkItem "Laptop Box" 2 5 "OK");
               Heap.ItemDict (mkItem "Accessory Kit" 5 10 "OK");
               Heap.StateDict [(1, 0%nat); (2, 1%nat)]]
              [(1, mkItem "Laptop Box" 2 5 "OK");
               (2, mkItem "Accessory Kit" 5 10 "OK")] eq_refl)
    as (new_state & transaction & h' & Hrun & _ & Hsame & _).
  exists new_state, transaction, h'. split; [exact Hrun | exact Hsame].
Defined.

End InputUntouched.

(** ** Further properties of a cycle *)

Section CycleFacts.
Import VisionProcessor.

Lemma reconcile_entry_stock (O : list Z) (e : Z * Item) :
  current_stock (reconcile_entry O e).2 = count (reconcile_entry O e).1 O.
Proof.
  unfold reconcile_entry, changed. destruct (count e.1 O =? current_stock e.2) eqn:Hc;
    simpl; [lia | done].
Qed.

Lemma reconcile_entry_changed (O : list Z) (e : Z * Item) :
  changed O e = true → reconcile_entry O e ≠ e.
Proof.
  intros Hch Heq. pose proof (reconcile_entry_stock O e) as Hst.
  rewrite Heq in Hst. unfold changed in Hch. lia.
Qed.

Lemma head_changed_items (S : InventoryState) (O : list Z) (e : Z * Item) :
  head (changed_items S O) = Some e → e ∈ S ∧ changed O e = true.
Proof.
  unfold changed_items. intros Hhd.
  assert (In e (List.filter (changed O) S)) as Hin.
  { destruct (List.filter (changed O) S) as [|e' l]; [done|].
    injection Hhd as ->. by left. }
  apply filter_In in Hin as [Hin Hch]. by rewrite list_elem_of_In.
Qed.

(** After a cycle every stock is the number of occurrences of the item's
    identifier in the observation, so no stock of the result is negative,
    whatever the input snapshot held. *)
Theorem stock_is_observed_count now (S : InventoryState) (O : list Z) :
  Forall (λ e, current_stock e.2 = count e.1 O ∧ 0 ≤ current_stock e.2)
    (process_frame_update now S O).1.
Proof.
  rewrite process_frame_update_spec. cbn [fst].
  apply Forall_fmap, Forall_forall. intros e _. simpl.
  rewrite reconcile_entry_stock. split; [done | apply count_nonneg].
Qed.

(** A cycle never renames an item and never moves its minimum: the
    identifiers, names and thresholds of the result are those of the
    input, position by position. *)
Theorem name_and_threshold_kept now (S : InventoryState) (O : list Z) :
  (λ e, (e.1, name e.2, min_stock e.2)) <$> (process_frame_update now S O).1
  = (λ e, (e.1, name e.2, min_stock e.2)) <$> S.
Proof.
  rewrite process_frame_update_spec. cbn [fst].
  rewrite <- list_fmap_compose. apply list_fmap_ext. intros _ e _. simpl.
  unfold reconcile_entry. by destruct (changed O e).
Qed.

(** A cycle hands back a transaction exactly when it changed the
    snapshot. *)
Theorem transaction_iff_changed now (S : InventoryState) (O : list Z) :
  (process_frame_update now S O).2 = None ↔ (process_frame_update now S O).1 = S.
Proof.
  rewrite process_frame_update_spec. cbn [fst snd]. unfold changed_items.
  induction S as [|e S IH]; [done|]. rewrite fmap_cons. simpl.
  destruct (changed O e) eqn:Hch.
  - simpl. split; [done|]. intros [= He _].
    by destruct (reconcile_entry_changed O e Hch).
  - rewrite IH, (reconcile_entry_unchanged O e Hch).
    split; [by intros -> | by intros [= ->]].
Qed.

(** The transaction of a cycle names an item of the snapshot whose count
    moved: its quantity is the strictly positive distance between the old
    stock and the observed count, its action is ADDED when the count went
    up and REMOVED when it went down, and its timestamp is the clock
    reading. *)
Theorem transaction_well_formed now (S : InventoryState) (O : list Z)
    (t : Transaction) :
  (process_frame_update now S O).2 = Some t →
  ∃ id d,
    (id, d) ∈ S
    ∧ item_id t = pretty id
    ∧ item_name t = name d
    ∧ timestamp t = now
    ∧ quantity_change t = Z.abs (count id O - current_stock d)
    ∧ 0 < quantity_change t
    ∧ (current_stock d < count id O → action t = "ADDED")
    ∧ (count id O < current_stock d → action t = "REMOVED").
Proof.
  rewrite process_frame_update_spec. cbn [snd].
  destruct (head (changed_items S O)) as [[id d]|] eqn:Hhd; [|done].
  intros [= <-]. apply head_changed_items in Hhd as [Hin Hch].
  unfold changed in Hch. simpl in Hch.
  exists id, d. unfold transaction_for, make_transaction. simpl.
  repeat split; try done; try lia.
  - intros Hlt. destruct (count id O - current_stock d >? 0) eqn:Hgt; [done | lia].
  - intros Hlt. destruct (count id O - current_stock d >? 0) eqn:Hgt; [lia | done].
Qed.

Lemma transaction_well_formed_witness :
  ∃ id d,
    (id, d) ∈ default_state
    ∧ item_id (mkTransaction "2" "Accessory Kit" "2026-11-03 10:00:00" "ADDED" 1)
      = pretty id
    ∧ current_stock d = 10.
Proof.
  destruct (transaction_well_formed "2026-11-03 10:00:00" default_state
              [1; 1; 1; 1; 1; 2; 2; 2; 2; 2; 2; 2; 2; 2; 2; 2; 3; 3; 3]
              (mkTransaction "2" "Accessory Kit" "2026-11-03 10:00:00" "ADDED" 1)
              eq_refl)
    as (id & d & Hin & Hid & _).
  exists id, d. split; [exact Hin|]. split; [exact Hid|].
  repeat (apply elem_of_cons in Hin as [Hin|Hin]);
    [| | | by apply elem_of_nil in Hin];
    injection Hin as -> ->; first [reflexivity | vm_compute in Hid; discriminate].
Defined.

(** The observation is read as a multiset: reordering it does not change
    the result. *)
Theorem observation_order_irrelevant now (S : InventoryState) (O O' : list Z) :
  O ≡ₚ O' → process_frame_update now S O = process_frame_update now S O'.
Proof.
  intros Hperm. apply process_frame_update_ext. intros id _.
  unfold count. f_equal.
  by apply (proj1 (Permutation_count_occ Z.eq_dec O O')).
Qed.

Lemma observation_order_irrelevant_witness :
  process_frame_update "2026-11-03 10:00:00" default_state [1; 2; 1]
  = process_frame_update "2026-11-03 10:00:00" default_state [2; 1; 1].
Proof.
  apply observation_order_irrelevant.
  apply perm_swap.
Defined.

End CycleFacts.

(** ** Cycles that change nothing, or one item *)

Section SingleChange.
Import VisionProcessor.






Lemma dict_lookup_Some_elem {V} (k : Z) (v : V) (d : list (Z * V)) :
  dict_lookup k d = Some v → (k, v) ∈ d.
Proof.
  induction d as [|[k' v'] d IH]; simpl; [done|].
  destruct (decide (k' = k)) as [->|].
  - intros [= ->]. left.
  - intros ?. right. by apply IH.
Qed.



End SingleChange.

(** ** The simulated tracker *)

Section Tracker.
Import VisionProcessor Simulator.

Lemma extend_present_app (acc : list Z) (S : InventoryState) :
  extend_present acc S = acc ++ extend_present [] S.
Proof.
  revert acc. induction S as [|[k d] S IH]; intros acc; simpl.
  - by rewrite app_nil_r.
  - rewrite (IH (acc ++ _)), (IH (replicate _ _)). by rewrite app_assoc.
Qed.

Lemma extend_present_cons (k : Z) (d : Item) (S : InventoryState) :
  extend_present [] ((k, d) :: S)
  = replicate (Z.to_nat (current_stock d)) k ++ extend_present [] S.
Proof. simpl. apply extend_present_app. Qed.

Lemma extend_present_keys (S : InventoryState) (x : Z) :
  x ∈ extend_present [] S → x ∈ keys S.
Proof.
  unfold keys. induction S as [|[k d] S IH]; [done|].
  rewrite extend_present_cons, fmap_cons. simpl.
  intros [[-> _]%elem_of_replicate|Hin]%elem_of_app; [left | right; by apply IH].
Qed.




Lemma list_remove_subseteq (x : Z) (l l' : list Z) :
  list_remove x l = Some l' → ∀ y, y ∈ l' → y ∈ l.
Proof.
  revert l'. induction l as [|z l IH]; intros l'; simpl; [done|].
  destruct (decide (z = x)).
  - intros [= ->] y ?. by right.
  - destruct (list_remove x l) as [r|]; [|done]. intros [= <-] y.
    intros [->|?]%elem_of_cons; [left | right; by apply (IH r)].
Qed.

Lemma random_choice_elem {A} (pick : nat) (seq : list A) (x : A) :
  random_choice pick seq = Some x → x ∈ seq.
Proof. unfold random_choice. apply list_elem_of_lookup_2. Qed.



(** The tracker reports identifiers of the catalog only. *)
Theorem tracker_reports_catalog_ids (dr : Draws) (S : InventoryState)
    (tracked_ids : list Z) :
  generate_simulated_tracked_objects dr S = Some tracked_ids →
  ∀ x, x ∈ tracked_ids → x ∈ keys S.
Proof.
  unfold generate_simulated_tracked_objects.
  destruct (AppApi.random_lt_0_3 (random_k dr)).
  - destruct (random_choice (target_pick dr) (keys S)) as [target|] eqn:Hpick;
      [|done].
    apply random_choice_elem in Hpick. destruct (picked_action dr).
    + intros [= <-] x [Hx|Hx%list_elem_of_singleton]%elem_of_app;
        [by apply extend_present_keys | by subst].
    + case_bool_decide.
      * intros Hrm x Hx. apply extend_present_keys.
        by apply (list_remove_subseteq _ _ _ Hrm).
      * intros [= <-] x. apply extend_present_keys.
  - intros [= <-] x. apply extend_present_keys.
Qed.

Lemma tracker_reports_catalog_ids_witness :
  generate_simulated_tracked_objects (mkDraws 0 ADD 4) default_state
  = Some [1; 1; 1; 1; 1; 2; 2; 2; 2; 2; 2; 2; 2; 2; 2; 3; 3; 3; 2]
  ∧ 3 ∈ keys default_state.
Proof.
  split; [reflexivity|].
  apply (tracker_reports_catalog_ids (mkDraws 0 ADD 4) default_state _ eq_refl 3).
  do 15 right. left.
Defined.

End Tracker.

(** ** One pass of the main loop: the tracker, then the cycle *)

Section MainLoopPass.
Import VisionProcessor Simulator.












End MainLoopPass.

(** ** The API: one frame *)

Section ApiFrame.
Import AppApi.

Lemma dict_lookup_alter_eq {V} (f : V → V) (k : Z) (d : list (Z * V)) :
  dict_lookup k (dict_alter f k d) = f <$> dict_lookup k d.
Proof.
  induction d as [|[k' v] d IH]; [done|]. simpl.
  destruct (decide (k' = k)) as [->|Hne]; simpl.
  - by destruct (decide (k = k)).
  - by destruct (decide (k' = k)).
Qed.

Lemma dict_lookup_alter_ne {V} (f : V → V) (k k' : Z) (d : list (Z * V)) :
  k ≠ k' → dict_lookup k' (dict_alter f k d) = dict_lookup k' d.
Proof.
  intros Hne. induction d as [|[k0 v] d IH]; [done|]. simpl.
  destruct (decide (k0 = k)) as [->|Hne0]; simpl.
  - by destruct (decide (k = k')).
  - destruct (decide (k0 = k')); [done | apply IH].
Qed.

(** The state a frame leaves when it returns: the old one, or the old
    one with the target rewritten and one transaction appended. *)
Lemma process_vision_frame_fired now dr st st' :
  process_vision_frame now dr st = Some st' →
  st' = st
  ∨ ∃ item change,
      dict_lookup (target_id dr) (inventory_db st) = Some item
      ∧ (change = 1 ∧ picked_action dr = ADD
         ∨ change = -1 ∧ picked_action dr = REMOVE ∧ 0 < current_stock item)
      ∧ st' = {| inventory_db :=
                   dict_alter (λ _, apply_change change item)
                     (target_id dr) (inventory_db st);
                 transaction_history :=
                   transaction_history st ++
                   [ mkTransaction (id item) (name item) now
                       (action_str (picked_action dr) +:+ "ED") change ] |}.
Proof.
  unfold process_vision_frame.
  destruct (negb (is_NONE (picked_action dr)) && random_lt_0_3 (random_k dr))
    eqn:Hgo; [|intros [= <-]; by left].
  destruct (dict_lookup (target_id dr) (inventory_db st)) as [item|] eqn:Hlk; [|done].
  destruct (picked_action dr) eqn:Hact; simpl in *; [| |done].
  - intros [= <-]. right. exists item, 1. eauto.
  - destruct (current_stock item <=? 0) eqn:Hle; simpl.
    + intros [= <-]. by left.
    + intros [= <-]. right. exists item, (-1).
      split; [done|]. split; [right; repeat split; try done; lia | done].
Qed.

(** A frame raises [KeyError] exactly when it gets past the two random
    gates and the picked identifier is not a key of the store. *)
Theorem frame_key_error now dr st :
  process_vision_frame now dr st = None
  ↔ picked_action dr ≠ NONE
    ∧ random_lt_0_3 (random_k dr) = true
    ∧ dict_lookup (target_id dr) (inventory_db st) = None.
Proof.
  unfold process_vision_frame.
  destruct (random_lt_0_3 (random_k dr)); [|by destruct (picked_action dr);
    (split; [|intros (_ & ? & _)])].
  destruct (dict_lookup (target_id dr) (inventory_db st)) as [item|].
  - split; [|by intros (_ & _ & ?)].
    destruct (picked_action dr); simpl; [done| |done].
    by destruct (current_stock item <=? 0).
  - destruct (picked_action dr); simpl; split; try done; by intros (? & _).
Qed.

(** A frame writes to the stock and the status of the picked item only:
    keys, ids, names and thresholds stay, every other item stays, and the
    log keeps its entries and grows by at most one. *)
Theorem frame_effect now dr st st' :
  process_vision_frame now dr st = Some st' →
  Server.identity <$> inventory_db st' = Server.identity <$> inventory_db st
  ∧ (∀ k, k ≠ target_id dr →
       dict_lookup k (inventory_db st') = dict_lookup k (inventory_db st))
  ∧ transaction_history st `prefix_of` transaction_history st'
  ∧ (length (transaction_history st') ≤ S (length (transaction_history st)))%nat.
Proof.
  intros [->|(item & change & Hlk & _ & ->)]%process_vision_frame_fired.
  - repeat split; [done | lia].
  - simpl. repeat split.
    + clear -Hlk. induction (inventory_db st) as [|[k v] d IH]; [done|].
      simpl in *. destruct (decide (k = target_id dr)) as [->|Hne].
      * by injection Hlk as ->.
      * rewrite !fmap_cons. f_equal. by apply IH.
    + intros k Hk. by apply dict_lookup_alter_ne.
    + by apply prefix_app_r.
    + rewrite length_app. simpl. lia.
Qed.

Lemma frame_effect_witness :
  Server.identity <$>
    [(1, mkInventoryItem 1 "Laptop Box" 2 5 "OK");
     (2, mkInventoryItem 2 "Accessory Kit" 5 9 "OK");
     (3, mkInventoryItem 3 "Monitor Stand" 1 3 "OK")]
  = Server.identity <$> inventory_db initial_state.
Proof.
  exact (proj1 (frame_effect "2026-11-03 10:00:00" (mkDraws 2 REMOVE 7)
                  initial_state
                  (mkState
                     [(1, mkInventoryItem 1 "Laptop Box" 2 5 "OK");
                      (2, mkInventoryItem 2 "Accessory Kit" 5 9 "OK");
                      (3, mkInventoryItem 3 "Monitor Stand" 1 3 "OK")]
                     [mkTransaction 2 "Accessory Kit" "2026-11-03 10:00:00"
                        "REMOVEED" (-1)])
                  eq_refl)).
Defined.

(** The transaction a frame appends carries the id and name of the
    picked item and the clock reading; its quantity is the signed change
    of the stock, +1 with action ADDED or -1 with action REMOVEED (the
    picked action followed by ED), and a removal is recorded only from a
    positive stock. *)
Theorem frame_transaction now dr st st' t :
  process_vision_frame now dr st = Some st' →
  transaction_history st' = transaction_history st ++ [t] →
  ∃ item item',
    dict_lookup (target_id dr) (inventory_db st) = Some item
    ∧ dict_lookup (target_id dr) (inventory_db st') = Some item'
    ∧ item_id t = id item ∧ item_name t = name item ∧ timestamp t = now
    ∧ current_stock item' = current_stock item + quantity_change t
    ∧ (action t = "ADDED" ∧ quantity_change t = 1
       ∨ action t = "REMOVEED" ∧ quantity_change t = -1 ∧ 0 < current_stock item).
Proof.
  intros [->|(item & change & Hlk & Hch & ->)]%process_vision_frame_fired Hlog.
  - apply (f_equal length) in Hlog. rewrite length_app in Hlog. simpl in Hlog. lia.
  - simpl in Hlog. apply app_inv_head in Hlog. injection Hlog as <-.
    exists item, (apply_change change item). simpl.
    rewrite dict_lookup_alter_eq, Hlk. repeat split; try done.
    destruct Hch as [[-> ->]|(-> & -> & Hpos)]; [by left | by right].
Qed.

Lemma frame_transaction_witness :
  ∃ item item',
    dict_lookup 2 (inventory_db initial_state) = Some item
    ∧ current_stock item' = current_stock item + -1.
Proof.
  destruct (frame_transaction "2026-11-03 10:00:00" (mkDraws 2 REMOVE 7)
              initial_state
              (mkState
                 [(1, mkInventoryItem 1 "Laptop Box" 2 5 "OK");
                  (2, mkInventoryItem 2 "Accessory Kit" 5 9 "OK");
                  (3, mkInventoryItem 3 "Monitor Stand" 1 3 "OK")]
                 [mkTransaction 2 "Accessory Kit" "2026-11-03 10:00:00"
                    "REMOVEED" (-1)])
              (mkTransaction 2 "Accessory Kit" "2026-11-03 10:00:00"
                 "REMOVEED" (-1))
              eq_refl eq_refl)
    as (item & item' & Hlk & _ & _ & _ & _ & Hstock & _).
  exists item, item'. split; [exact Hlk | exact Hstock].
Defined.

(** The transaction read returns the last ten entries of the log, all of
    it when it has ten or fewer, in log order. *)
Theorem recent_transactions st :
  length (get_transaction_history st).2
    = Nat.min 10 (length (transaction_history st))
  ∧ (get_transaction_history st).2 `suffix_of` transaction_history st.
Proof.
  unfold get_transaction_history. cbn [snd]. split.
  - rewrite length_drop. lia.
  - apply suffix_drop.
Qed.

End ApiFrame.

(** ** The API: any number of status requests *)

Section ApiRuns.
Import AppApi Server.

Lemma initial_state_stock_nonneg :
  Forall stock_nonneg (values (inventory_db initial_state)).
Proof. repeat constructor; unfold stock_nonneg; simpl; lia. Qed.

Lemma process_vision_frame_stock_nonneg now dr st st' :
  Forall stock_nonneg (values (inventory_db st)) →
  process_vision_frame now dr st = Some st' →
  Forall stock_nonneg (values (inventory_db st')).
Proof.
  apply process_vision_frame_Forall.
  intros item change Hitem Hch. unfold stock_nonneg, apply_change in *. simpl. lia.
Qed.

Lemma process_vision_frame_log_length now dr st st' :
  process_vision_frame now dr st = Some st' →
  (length (transaction_history st') ≤ S (length (transaction_history st)))%nat.
Proof.
  intros [->|(item & change & _ & _ & ->)]%process_vision_frame_fired; [lia|].
  simpl. rewrite length_app. simpl. lia.
Qed.

Lemma status_reads_invariants (reqs : list (string * Draws)) (st : State) :
  Forall (λ q, valid_draws q.2) reqs →
  keys (inventory_db st) = keys (inventory_db initial_state) →
  Forall tier_ok (values (inventory_db st)) →
  Forall stock_nonneg (values (inventory_db st)) →
  ∃ st', status_reads reqs st = Some st'
         ∧ keys (inventory_db st') = keys (inventory_db initial_state)
         ∧ Forall tier_ok (values (inventory_db st'))
         ∧ Forall stock_nonneg (values (inventory_db st'))
         ∧ (length (transaction_history st')
            ≤ length (transaction_history st) + length reqs)%nat.
Proof.
  revert st. induction reqs as [|[now dr] reqs IH]; intros st Hvalid Hkeys Htier Hpos.
  - exists st. simpl. repeat split; try done. lia.
  - apply Forall_cons in Hvalid as [Hdr Hvalid]. simpl in Hdr.
    destruct (process_vision_frame_runs now dr st Hdr Hkeys) as (st1 & Hrun & Hk1).
    assert (Forall tier_ok (values (inventory_db st1))) as Htier1.
    { apply (process_vision_frame_Forall tier_ok now dr st st1); [|done..].
      intros. apply apply_change_tier_ok. }
    pose proof (process_vision_frame_stock_nonneg now dr st st1 Hpos Hrun) as Hpos1.
    pose proof (process_vision_frame_log_length now dr st st1 Hrun) as Hlen.
    destruct (IH st1 Hvalid) as (st' & Hrest & Hk' & Ht' & Hp' & Hl');
      [congruence | done | done |].
    exists st'. simpl. unfold get_inventory_status. rewrite Hrun.
    repeat split; try done. lia.
Qed.

(** From the initial store, status requests with draws the [random]
    module can produce never raise, however many they are: the store
    keeps its three keys, every tier is the evaluation of its stock, no
    stock is negative, and the log has at most one entry per request. *)
Theorem status_reads_never_fail (reqs : list (string * Draws)) :
  Forall (λ q, valid_draws q.2) reqs →
  ∃ st, status_reads reqs initial_state = Some st
        ∧ keys (inventory_db st) = keys (inventory_db initial_state)
        ∧ Forall tier_ok (values (inventory_db st))
        ∧ Forall stock_nonneg (values (inventory_db st))
        ∧ (length (transaction_history st) ≤ length reqs)%nat.
Proof.
  intros Hvalid.
  destruct (status_reads_invariants reqs initial_state Hvalid eq_refl
              initial_state_tier_ok initial_state_stock_nonneg)
    as (st & Hrun & Hk & Ht & Hp & Hl).
  exists st. repeat split; try done.
Qed.

Lemma status_reads_never_fail_witness :
  ∃ st,
    status_reads
      [("2026-11-03 10:00:00", mkDraws 3 REMOVE 0);
       ("2026-11-03 10:00:01", mkDraws 1 NONE 0);
       ("2026-11-03 10:00:02", mkDraws 3 ADD (2 ^ 52))] initial_state = Some st
    ∧ (length (transaction_history st) ≤ 3)%nat.
Proof.
  assert (∀ i a k, i ∈ [1; 2; 3] → 0 ≤ k < 2 ^ 53 → valid_draws (mkDraws i a k))
    as Hv.
  { intros i a k Hi Hk. split; [|exact Hk]. simpl.
    unfold SIMULATED_DETECTED_IDS. apply elem_of_app. by left. }
  destruct (status_reads_never_fail
              [("2026-11-03 10:00:00", mkDraws 3 REMOVE 0);
               ("2026-11-03 10:00:01", mkDraws 1 NONE 0);
               ("2026-11-03 10:00:02", mkDraws 3 ADD (2 ^ 52))])
    as (st & Hrun & _ & _ & _ & Hlen).
  { repeat constructor; apply Hv; try lia;
      repeat first [by left | right]. }
  exists st. split; [exact Hrun | exact Hlen].
Defined.

Lemma net_change_snoc (k : Z) (log : list Transaction) (t : Transaction) :
  net_change k (log ++ [t])
  = net_change k log + (if decide (item_id t = k) then quantity_change t else 0).
Proof. induction log as [|t' log IH]; simpl; [lia | rewrite IH; lia]. Qed.

Lemma initial_state_ledger_ok : ledger_ok initial_state.
Proof.
  intros k item Hlk. unfold initial_stock. rewrite Hlk.
  split; [|simpl; lia].
  apply dict_lookup_Some_elem in Hlk. simpl in Hlk.
  repeat (apply elem_of_cons in Hlk as [[= -> ->]|Hlk]; [done|]).
  by apply elem_of_nil in Hlk.
Qed.

Lemma process_vision_frame_ledger now dr st st' :
  ledger_ok st → process_vision_frame now dr st = Some st' → ledger_ok st'.
Proof.
  intros Hled [->|(item & change & Hlk & _ & ->)]%process_vision_frame_fired;
    [done|].
  destruct (Hled _ _ Hlk) as [Hid Hstock].
  intros k item'. simpl. rewrite net_change_snoc. simpl.
  destruct (decide (target_id dr = k)) as [<-|Hne].
  - rewrite dict_lookup_alter_eq, Hlk. simpl. intros [= <-]. simpl.
    destruct (decide (id item = target_id dr)); [lia | done].
  - rewrite dict_lookup_alter_ne by done. intros Hk.
    destruct (Hled _ _ Hk) as [Hid' Hstock'].
    destruct (decide (id item = k)); [congruence | lia].
Qed.

(** The log accounts for the stock: after any run of status requests
    from the initial store, the stock of every item is its initial stock
    plus the sum of the quantities of its transactions in the log. *)
Theorem stock_matches_log (reqs : list (string * Draws)) (st : State) :
  status_reads reqs initial_state = Some st →
  ∀ k item, dict_lookup k (inventory_db st) = Some item →
    current_stock item = initial_stock k + net_change k (transaction_history st).
Proof.
  intros Hrun k item Hlk.
  assert (ledger_ok st) as Hled; [|by destruct (Hled k item Hlk)].
  clear k item Hlk. pose proof initial_state_ledger_ok as H0.
  revert Hrun H0. generalize initial_state as st0.
  induction reqs as [|[now dr] reqs IH]; intros st0 Hrun H0; simpl in Hrun.
  - by injection Hrun as <-.
  - unfold get_inventory_status in Hrun.
    destruct (process_vision_frame now dr st0) as [st1|] eqn:Hframe; [|done].
    apply (IH st1 Hrun). by apply (process_vision_frame_ledger now dr st0).
Qed.

Lemma stock_matches_log_witness :
  current_stock (mkInventoryItem 3 "Monitor Stand" 1 3 "OK")
  = initial_stock 3
    + net_change 3
        [mkTransaction 3 "Monitor Stand" "2026-11-03 10:00:00" "REMOVEED" (-1);
         mkTransaction 3 "Monitor Stand" "2026-11-03 10:00:02" "ADDED" 1].
Proof.
  exact (stock_matches_log
           [("2026-11-03 10:00:00", mkDraws 3 REMOVE 0);
            ("2026-11-03 10:00:01", mkDraws 1 NONE 0);
            ("2026-11-03 10:00:02", mkDraws 3 ADD 5)]
           (mkState
              [(1, mkInventoryItem 1 "Laptop Box" 2 5 "OK");
               (2, mkInventoryItem 2 "Accessory Kit" 5 10 "OK");
               (3, mkInventoryItem 3 "Monitor Stand" 1 3 "OK")]
              [mkTransaction 3 "Monitor Stand" "2026-11-03 10:00:00" "REMOVEED" (-1);
               mkTransaction 3 "Monitor Stand" "2026-11-03 10:00:02" "ADDED" 1])
           eq_refl 3 (mkInventoryItem 3 "Monitor Stand" 1 3 "OK") eq_refl).
Defined.

End ApiRuns.
